(** * tadtool: the packaging manifest [setup.py]

    The packaging of tadtool is one module, [setup.py].  Evaluating it
    imports [setup] and [find_packages] from setuptools and performs one call
    [setup(...)] whose keyword arguments are string and list literals, except
    [packages], which is the value of [find_packages(exclude=["test"])].

    The module is embedded as a computation in a small state monad whose
    state is the directory being packaged together with the trace of the
    imports and calls performed so far.  setuptools itself is not part of
    the repository: the function the import binds to [find_packages] is a
    parameter of the development. *)

From Stdlib Require Import String Ascii List Bool.
Import ListNotations.

Open Scope string_scope.
Open Scope list_scope.

(** ** Data *)

(** The keyword arguments of the [setup] call, one field per keyword, in the
    order of the source. *)
Record kwargs : Type := Kwargs {
  name : string;
  version : string;
  description : string;
  packages : list string;
  install_requires : list string;
  author : string;
  author_email : string;
  url : string;
  download_url : string;
  keywords : list string;
  classifiers : list string;
  scripts : list string
}.

(** A directory tree, as far as package discovery looks at it: the name of
    the directory, whether it holds an [__init__.py], and its
    sub-directories. *)
Unset Elimination Schemes.
Inductive dir : Type :=
| Dir (dname : string) (has_init : bool) (subdirs : list dir).
Set Elimination Schemes.

(** What evaluating the module does to the outside: imports and calls. *)
Inductive event : Type :=
| ImportFrom (modname : string) (names : list string)
| CallFindPackages (exclude : list string)
| CallSetup (kw : kwargs).

Record world : Type := World {
  cwd : dir;
  trace : list event
}.

(** ** The evaluation monad *)

Definition M (A : Type) : Type := world -> A * world.

Definition ret {A : Type} (a : A) : M A := fun w => (a, w).

Definition bind {A B : Type} (m : M A) (f : A -> M B) : M B :=
  fun w => let (a, w') := m w in f a w'.

Notation "x <- m ;; k" := (bind m (fun x => k))
  (at level 61, m at next level, right associativity).
Notation "m ;; k" := (bind m (fun _ => k))
  (at level 61, right associativity).

Definition emit (e : event) : M unit :=
  fun w => (tt, World (cwd w) (trace w ++ [e])).

Definition getcwd : M dir := fun w => (cwd w, w).

(** ** The module *)

Section SetupPy.

(** The function that [from setuptools import find_packages] binds: given
    the directory searched (the default [where='.']) and the [exclude]
    patterns, the dotted names of the packages found. *)
Variable finder : dir -> list string -> list string.

Definition import_from (modname : string) (names : list string) : M unit :=
  emit (ImportFrom modname names).

Definition find_packages (exclude : list string) : M (list string) :=
  emit (CallFindPackages exclude) ;;
  d <- getcwd ;;
  ret (finder d exclude).

Definition setup (kw : kwargs) : M unit := emit (CallSetup kw).

(** The keyword arguments of lines 4 to 19, with the value of the one
    argument that is not a literal left open. *)
Definition setup_kwargs (pkgs : list string) : kwargs :=
  {| name := "tadtool";
     version := "0.61";
     description := "Assistant to find cutoffs in TAD calling algorithms.";
     packages := pkgs;
     install_requires := ["numpy"; "matplotlib"; "progressbar2"];
     author := "Vaquerizas lab";
     author_email := "kai.kruse@mpi-muenster.mpg.de";
     url := "https://github.com/vaquerizaslab/tadtool";
     download_url := "https://github.com/vaquerizaslab/tadtool/tarball/0.61";
     keywords := ["bioinformatics"; "hi-c"; "genomics"; "tad"];
     classifiers := [];
     scripts := ["bin/tadtool"] |}.

(** [setup.py]: the import, then the call; Python evaluates the keyword
    arguments from left to right before it calls [setup], so the call of
    [find_packages] comes first. *)
Definition setup_py : M unit :=
  import_from "setuptools" ["setup"; "find_packages"] ;;
  pkgs <- find_packages ["test"] ;;
  setup (setup_kwargs pkgs).

(** The trace of one evaluation of the module in directory [d]. *)
Definition run (d : dir) : list event :=
  trace (snd (setup_py (World d []))).

End SetupPy.

(** ** Observations on a trace *)

Fixpoint setup_calls (evs : list event) : list kwargs :=
  match evs with
  | [] => []
  | CallSetup kw :: evs' => kw :: setup_calls evs'
  | _ :: evs' => setup_calls evs'
  end.

Fixpoint find_packages_calls (evs : list event) : list (list string) :=
  match evs with
  | [] => []
  | CallFindPackages ex :: evs' => ex :: find_packages_calls evs'
  | _ :: evs' => find_packages_calls evs'
  end.

Definition is_call (e : event) : bool :=
  match e with
  | ImportFrom _ _ => false
  | _ => true
  end.

(** The calls of a trace, imports left out. *)
Definition calls (evs : list event) : list event := filter is_call evs.

(** ** Strings, as the packaging tools read them *)

(** Python's [s.endswith(suffix)]. *)
Fixpoint endswith (s suffix : string) : bool :=
  String.eqb s suffix ||
  match s with
  | EmptyString => false
  | String _ s' => endswith s' suffix
  end.

(** Python's [s.split(sep)] for a separator of one character, with the
    piece being read kept in [cur]. *)
Fixpoint split_from (sep : ascii) (cur s : string) : list string :=
  match s with
  | EmptyString => [cur]
  | String c s' =>
      if Ascii.eqb c sep then cur :: split_from sep EmptyString s'
      else split_from sep (cur ++ String c EmptyString)%string s'
  end.

Definition split (sep : ascii) (s : string) : list string :=
  split_from sep EmptyString s.

(** The last component of a path or URL: [posixpath.basename], that is
    [p[p.rfind('/') + 1:]]. *)
Definition basename (p : string) : string :=
  last (split "/" p) EmptyString.

(** Python's [c in s] for a character [c]. *)
Fixpoint contains (c : ascii) (s : string) : bool :=
  match s with
  | EmptyString => false
  | String a s' => Ascii.eqb a c || contains c s'
  end.

(** The base names of the declared scripts: the file names distutils gives
    their copies.  Whether a copy is made depends on the files of the
    checkout, see [install_scripts]. *)
Definition installed_commands (kw : kwargs) : list string :=
  map basename (scripts kw).

(** The arguments of the call other than [packages], in the order of the
    source. *)
Definition literal_arguments (kw : kwargs) :
  string * string * string * list string * string * string * string * string *
  list string * list string * list string :=
  (name kw, version kw, description kw, install_requires kw, author kw,
   author_email kw, url kw, download_url kw, keywords kw, classifiers kw,
   scripts kw).

(** ** Well-formedness of the declared metadata *)

(** Python's [all(f(c) for c in s)]. *)
Fixpoint all_chars (f : ascii -> bool) (s : string) : bool :=
  match s with
  | EmptyString => true
  | String c s' => f c && all_chars f s'
  end.

Definition in_range (lo hi : nat) (c : ascii) : bool :=
  Nat.leb lo (nat_of_ascii c) && Nat.leb (nat_of_ascii c) hi.

(** The characters a project name is made of in a requirement string:
    letters, digits, [-], [_] and [.].  Version operators, extras, markers
    and URLs all need a character outside this set. *)
Definition name_char (c : ascii) : bool :=
  in_range 65 90 c || in_range 97 122 c || in_range 48 57 c ||
  Ascii.eqb c "-" || Ascii.eqb c "_" || Ascii.eqb c ".".

(** Python's [int(s)] on a string of decimal digits; [None] where it
    raises. *)
Fixpoint decimal_from (acc : nat) (s : string) : option nat :=
  match s with
  | EmptyString => Some acc
  | String c s' =>
      if in_range 48 57 c
      then decimal_from (10 * acc + (nat_of_ascii c - 48)) s'
      else None
  end.

Definition decimal (s : string) : option nat :=
  match s with
  | EmptyString => None
  | _ => decimal_from 0 s
  end.

(** The line feed and the carriage return. *)
Definition LF : ascii := ascii_of_nat 10.
Definition CR : ascii := ascii_of_nat 13.

(** ** Installing the declared scripts

    What [setup] does with the [scripts] argument on installation is code of
    distutils, not of the repository: [build_scripts] copies every script
    into the build directory and [install_scripts] copies the build directory
    into the script directory of the environment, the one on the path.  The
    model is of a POSIX system and a build directory that is empty at the
    start; the regular files of the checkout are given by [read], from a
    relative path to the text of the file.  Rewriting the first line of a
    Python script to name the interpreter is taken to succeed. *)











(** ** Package discovery

    setuptools is a dependency, not part of the repository.  What the
    manifest relies on is its documented contract for [exclude]; a reference
    finder after setuptools' [PackageFinder] shows that the contract can be
    met and gives concrete directories to evaluate the module in. *)

(** Shell-style matching of a whole name against a pattern with [*] (any run
    of characters) and [?] (any one character), as [fnmatch.fnmatchcase]
    does; bracketed character classes are not modelled. *)
Fixpoint glob (pat : string) : string -> bool :=
  match pat with
  | EmptyString => fun s => String.eqb s EmptyString
  | String c pat' =>
      if Ascii.eqb c "*" then
        fix star (s : string) : bool :=
          glob pat' s ||
          match s with
          | EmptyString => false
          | String _ s' => star s'
          end
      else if Ascii.eqb c "?" then
        fun s => match s with
                 | EmptyString => false
                 | String _ s' => glob pat' s'
                 end
      else
        fun s => match s with
                 | EmptyString => false
                 | String a s' => Ascii.eqb a c && glob pat' s'
                 end
  end.

Definition fnmatchcase (nm pat : string) : bool := glob pat nm.

(** A pattern without shell metacharacters. *)
Definition plain_pattern (pat : string) : bool :=
  negb (contains "*" pat) && negb (contains "?" pat) && negb (contains "[" pat).

(** The contract of [exclude]: a package whose name an exclude pattern
    matches is not returned.  For a pattern without metacharacters, matching
    is equality. *)
Definition honours_exclude (finder : dir -> list string -> list string) : Prop :=
  forall (d : dir) (exclude : list string) (p pat : string),
    In p (finder d exclude) -> In pat exclude ->
    plain_pattern pat = true -> p <> pat.

(** [PackageFinder._build_filter]. *)
Definition build_filter (patterns : list string) (nm : string) : bool :=
  existsb (fnmatchcase nm) patterns.

(** [PackageFinder._find_packages_iter]: of the sub-directories of [d], those
    with a dot in their name or without [__init__.py] are skipped with all
    below them; the others are reported when the filters let them through,
    and searched in turn, whether reported or not. *)
Fixpoint find_packages_iter (exclude include : string -> bool)
    (prefix : string) (d : dir) : list string :=
  match d with
  | Dir _ _ subs =>
      flat_map (fun c =>
        match c with
        | Dir n init _ =>
            if contains "." n || negb init then []
            else if include (prefix ++ n)%string &&
                    negb (exclude (prefix ++ n)%string)
                 then [(prefix ++ n)%string] else []
        end) subs
      ++
      flat_map (fun c =>
        match c with
        | Dir n init _ =>
            if contains "." n || negb init then []
            else find_packages_iter exclude include (prefix ++ n ++ ".")%string c
        end) subs
  end.

(** [PackageFinder.find] with the default [include=('*',)]. *)
Definition PackageFinder_find (d : dir) (exclude : list string) : list string :=
  find_packages_iter
    (build_filter ("ez_setup" :: "*__pycache__" :: exclude))
    (build_filter ["*"])
    EmptyString d.

(** Two checkouts to evaluate the module in. *)
Definition checkout_with_tests : dir :=
  Dir "." false
    [Dir "bin" false [];
     Dir "tadtool" true [];
     Dir "test" true [Dir "data" true []]].

Definition checkout_bare : dir :=
  Dir "." false [Dir "bin" false []].

(** Induction on directory trees, with the hypothesis for every
    sub-directory. *)
Section DirInduction.

Variable P : dir -> Prop.
Hypothesis step : forall n i subs, Forall P subs -> P (Dir n i subs).

Fixpoint dir_ind (d : dir) : P d :=
  match d with
  | Dir n i subs =>
      step n i subs
        ((fix all (l : list dir) : Forall P l :=
            match l with
            | [] => Forall_nil P
            | c :: l' => Forall_cons c (dir_ind c) (all l')
            end) subs)
  end.

End DirInduction.

(** ** Lemmas on strings *)

Lemma append_empty_r (s : string) : (s ++ "")%string = s.
Proof.
  induction s as [|c s IH]; simpl; [reflexivity | now rewrite IH].
Qed.

Lemma append_assoc (s t u : string) :
  ((s ++ t) ++ u)%string = (s ++ (t ++ u))%string.
Proof.
  induction s as [|c s IH]; simpl; [reflexivity | now rewrite IH].
Qed.

Lemma endswith_self (s : string) : endswith s s = true.
Proof.
  destruct s; cbn [endswith]; now rewrite String.eqb_refl.
Qed.

Lemma endswith_app (p s : string) : endswith (p ++ s) s = true.
Proof.
  induction p as [|c p IH].
  - apply endswith_self.
  - change (String c p ++ s)%string with (String c (p ++ s)%string).
    cbn [endswith]. rewrite IH. apply orb_true_r.
Qed.

Lemma endswith_inv (s suffix : string) :
  endswith s suffix = true -> exists p, s = (p ++ suffix)%string.
Proof.
  induction s as [|c s IH]; cbn [endswith]; intros H.
  - rewrite orb_false_r in H. apply String.eqb_eq in H.
    exists EmptyString. now subst.
  - apply orb_true_iff in H. destruct H as [H | H].
    + apply String.eqb_eq in H. exists EmptyString. now subst.
    + destruct (IH H) as [p ->]. now exists (String c p).
Qed.

Lemma split_from_no_sep (sep : ascii) (s cur : string) :
  contains sep s = false -> split_from sep cur s = [(cur ++ s)%string].
Proof.
  revert cur. induction s as [|c s IH]; simpl; intros cur H.
  - now rewrite append_empty_r.
  - apply orb_false_iff in H. destruct H as [Hc Hs].
    rewrite Hc, (IH _ Hs), append_assoc. reflexivity.
Qed.

Lemma split_from_nonempty (sep : ascii) (s cur : string) :
  split_from sep cur s <> [].
Proof.
  revert cur. induction s as [|c s IH]; simpl; intros cur.
  - discriminate.
  - destruct (Ascii.eqb c sep); [discriminate | apply IH].
Qed.

Lemma last_split_from_app (sep : ascii) (p s cur : string) :
  last (split_from sep cur (p ++ String sep s)) EmptyString =
  last (split_from sep EmptyString s) EmptyString.
Proof.
  revert cur. induction p as [|c p IH]; simpl; intros cur.
  - rewrite Ascii.eqb_refl.
    destruct (split_from sep "" s) eqn:E; [|reflexivity].
    now apply split_from_nonempty in E.
  - destruct (Ascii.eqb c sep); [|apply IH].
    specialize (IH EmptyString).
    destruct (split_from sep "" (p ++ String sep s)) eqn:E; [|exact IH].
    now apply split_from_nonempty in E.
Qed.

(** The base name of [p/s] is [s] when [s] holds no slash. *)
Lemma basename_app (p s : string) :
  contains "/" s = false -> basename (p ++ String "/" s) = s.
Proof.
  intros H. unfold basename, split.
  rewrite last_split_from_app, (split_from_no_sep _ _ _ H). reflexivity.
Qed.

(** For a pattern without metacharacters, matching is equality. *)
Lemma glob_plain (pat s : string) :
  contains "*" pat = false -> contains "?" pat = false ->
  glob pat s = String.eqb s pat.
Proof.
  revert s. induction pat as [|c pat IH]; intros s Hstar Hq.
  - reflexivity.
  - simpl in Hstar, Hq.
    apply orb_false_iff in Hstar. destruct Hstar as [Hc1 Hstar].
    apply orb_false_iff in Hq. destruct Hq as [Hc2 Hq].
    simpl. rewrite Hc1, Hc2.
    destruct s as [|a s]; [reflexivity|].
    simpl. rewrite (IH s Hstar Hq). reflexivity.
Qed.

Lemma fnmatchcase_plain (nm pat : string) :
  plain_pattern pat = true -> fnmatchcase nm pat = true <-> nm = pat.
Proof.
  unfold plain_pattern, fnmatchcase. intros H.
  apply andb_true_iff in H. destruct H as [H _].
  apply andb_true_iff in H. destruct H as [H1 H2].
  apply negb_true_iff in H1, H2.
  rewrite (glob_plain _ _ H1 H2). apply String.eqb_eq.
Qed.

(** A string made of characters of one class holds no character outside
    the class. *)
Lemma all_chars_excludes (f : ascii -> bool) (c : ascii) (s : string) :
  all_chars f s = true -> f c = false -> contains c s = false.
Proof.
  intros Hs Hc. induction s as [|a s IH]; simpl in *.
  - reflexivity.
  - apply andb_true_iff in Hs. destruct Hs as [Ha Hs].
    rewrite (IH Hs), orb_false_r.
    destruct (Ascii.eqb a c) eqn:E; [|reflexivity].
    apply Ascii.eqb_eq in E. congruence.
Qed.

(** ** The script directory after a copy *)



(** ** The reference finder meets the contract *)

Lemma find_packages_iter_filtered (exclude include : string -> bool)
    (d : dir) :
  forall (prefix p : string),
    In p (find_packages_iter exclude include prefix d) ->
    include p = true /\ exclude p = false.
Proof.
  induction d as [n i subs IH] using dir_ind.
  intros prefix p Hin. simpl in Hin.
  apply in_app_or in Hin. destruct Hin as [Hin | Hin];
    apply in_flat_map in Hin; destruct Hin as [c [Hc Hp]].
  - destruct c as [cn ci csubs].
    destruct (contains "." cn || negb ci); [contradiction|].
    destruct (include (prefix ++ cn)%string) eqn:Ei; [|contradiction].
    destruct (exclude (prefix ++ cn)%string) eqn:Ee; [contradiction|].
    destruct Hp as [<- | []]. now split.
  - rewrite Forall_forall in IH. specialize (IH c Hc).
    destruct c as [cn ci csubs].
    destruct (contains "." cn || negb ci); [contradiction|].
    exact (IH _ _ Hp).
Qed.

Lemma PackageFinder_find_honours_exclude : honours_exclude PackageFinder_find.
Proof.
  intros d exclude p pat Hin Hpat Hplain Heq. subst pat.
  apply find_packages_iter_filtered in Hin. destruct Hin as [_ Hex].
  unfold build_filter in Hex.
  assert (Hm : existsb (fnmatchcase p) ("ez_setup" :: "*__pycache__" :: exclude)
               = true).
  { apply existsb_exists. exists p. split.
    - now do 2 right.
    - now apply fnmatchcase_plain. }
  congruence.
Qed.

(** ** The reference finder on the two checkouts *)

(** The directory [test] is left out; its sub-package [test.data] is not,
    since the pattern [test] matches the name [test] only. *)
Example PackageFinder_find_with_tests :
  PackageFinder_find checkout_with_tests ["test"] = ["tadtool"; "test.data"].
Proof. reflexivity. Qed.

Example PackageFinder_find_bare :
  PackageFinder_find checkout_bare ["test"] = [].
Proof. reflexivity. Qed.

Example fnmatchcase_examples :
  fnmatchcase "test" "test" = true /\
  fnmatchcase "test.data" "test" = false /\
  fnmatchcase "test.data" "test*" = true /\
  fnmatchcase "tadtool.__pycache__" "*__pycache__" = true /\
  fnmatchcase "ac" "a?c" = false.
Proof. repeat split; reflexivity. Qed.

(** ** The trace of the module *)

Lemma run_trace (finder : dir -> list string -> list string) (d : dir) :
  run finder d =
  [ImportFrom "setuptools" ["setup"; "find_packages"];
   CallFindPackages ["test"];
   CallSetup (setup_kwargs (finder d ["test"]))].
Proof.
  destruct d as [n i subs]. reflexivity.
Qed.

Lemma run_setup_calls (finder : dir -> list string -> list string) (d : dir) :
  setup_calls (run finder d) = [setup_kwargs (finder d ["test"])].
Proof.
  rewrite run_trace. reflexivity.
Qed.

(** C1: the one [setup] call of an evaluation passes the name ["tadtool"]
    and the version ["0.61"]. *)
Theorem C1_name_and_version (finder : dir -> list string -> list string) (d : dir) :
  exists kw, setup_calls (run finder d) = [kw] /\
             name kw = "tadtool" /\ version kw = "0.61".
Proof.
  exists (setup_kwargs (finder d ["test"])).
  rewrite run_setup_calls. repeat split.
Qed.


(** Every claim on the arguments of the call starts the same way: name the
    one call of the trace. *)
Ltac the_call finder d :=
  exists (setup_kwargs (finder d ["test"]));
  split; [apply run_setup_calls|].

(** C2: the call declares three runtime dependencies and no other: numpy,
    matplotlib and progressbar2, in this order. *)
Theorem C2_install_requires (finder : dir -> list string -> list string) (d : dir) :
  exists kw, setup_calls (run finder d) = [kw] /\
             install_requires kw = ["numpy"; "matplotlib"; "progressbar2"] /\
             length (install_requires kw) = 3.
Proof.
  the_call finder d. split; reflexivity.
Qed.




(** C4: author, contact email, source URL and download URL are non-empty
    strings, and the list of keyword tags is non-empty (and so is each
    tag). *)
Theorem C4_metadata_nonempty (finder : dir -> list string -> list string) (d : dir) :
  exists kw, setup_calls (run finder d) = [kw] /\
             author kw <> "" /\ author_email kw <> "" /\
             url kw <> "" /\ download_url kw <> "" /\
             keywords kw <> [] /\
             Forall (fun k => k <> "") (keywords kw).
Proof.
  the_call finder d. cbn.
  repeat split; try discriminate.
  repeat constructor; discriminate.
Qed.

(** C5: the keyword tags are the four strings bioinformatics, hi-c, genomics
    and tad. *)
Theorem C5_keywords (finder : dir -> list string -> list string) (d : dir) :
  exists kw, setup_calls (run finder d) = [kw] /\
             keywords kw = ["bioinformatics"; "hi-c"; "genomics"; "tad"] /\
             length (keywords kw) = 4.
Proof.
  the_call finder d. split; reflexivity.
Qed.

(** C6, as stated, fails: besides [setup], an evaluation calls
    [find_packages], so its calls are never the [setup] call alone; and the
    arguments [setup] receives differ from one checkout to another, in
    [packages]. *)
Lemma C6_counterexample :
  (forall kw, calls (run PackageFinder_find checkout_with_tests) <> [CallSetup kw]) /\
  setup_calls (run PackageFinder_find checkout_with_tests) <>
  setup_calls (run PackageFinder_find checkout_bare).
Proof.
  split.
  - intros kw. rewrite run_trace. cbn [calls filter is_call]. discriminate.
  - rewrite !run_setup_calls. intros H.
    apply (f_equal (map packages)) in H. vm_compute in H. discriminate.
Qed.

(** C6, amended: an evaluation performs the import, one call
    [find_packages(exclude=["test"])] and one call of [setup], in this order
    and nothing else; every argument of [setup] other than [packages] is the
    same in any two evaluations, whatever the finder and the directory; and
    [packages] is what [find_packages] returned. *)
Theorem C6_literal_arguments_fixed
    (finder1 finder2 : dir -> list string -> list string) (d1 d2 : dir) :
  run finder1 d1 =
    [ImportFrom "setuptools" ["setup"; "find_packages"];
     CallFindPackages ["test"];
     CallSetup (setup_kwargs (finder1 d1 ["test"]))] /\
  length (setup_calls (run finder1 d1)) = 1 /\
  map literal_arguments (setup_calls (run finder1 d1)) =
  map literal_arguments (setup_calls (run finder2 d2)) /\
  map packages (setup_calls (run finder1 d1)) = [finder1 d1 ["test"]].
Proof.
  split; [apply run_trace|].
  rewrite !run_setup_calls. repeat split.
Qed.

(** C8: the download URL is the source URL followed by [/tarball/] and the
    version, so it ends with [tarball/] and the version, and its last path
    component is the version. *)
Theorem C8_download_url_version (finder : dir -> list string -> list string) (d : dir) :
  exists kw, setup_calls (run finder d) = [kw] /\
             download_url kw = (url kw ++ "/tarball/" ++ version kw)%string /\
             endswith (download_url kw) ("tarball/" ++ version kw) = true /\
             endswith (download_url kw) (version kw) = true /\
             basename (download_url kw) = version kw.
Proof.
  the_call finder d.
  set (kw := setup_kwargs (finder d ["test"])).
  assert (E : download_url kw = (url kw ++ "/tarball/" ++ version kw)%string)
    by reflexivity.
  split; [exact E|]. split; [|split].
  - replace (download_url kw)
      with ((url kw ++ "/")%string ++ ("tarball/" ++ version kw)%string)%string
      by (rewrite E; reflexivity).
    apply endswith_app.
  - replace (download_url kw)
      with ((url kw ++ "/tarball/")%string ++ version kw)%string
      by (rewrite E; reflexivity).
    apply endswith_app.
  - replace (download_url kw)
      with ((url kw ++ "/tarball")%string ++ String "/" (version kw))%string
      by (rewrite E; reflexivity).
    now rewrite basename_app.
Qed.

(** C9: [find_packages] is called once, with [exclude=["test"]]; a finder
    that honours [exclude] returns no package named [test], so none is among
    the [packages] that [setup] receives, whatever the directory holds. *)
Theorem C9_test_excluded (finder : dir -> list string -> list string) (d : dir) :
  honours_exclude finder ->
  find_packages_calls (run finder d) = [["test"]] /\
  Forall (fun kw => ~ In "test" (packages kw)) (setup_calls (run finder d)).
Proof.
  intros Hex. rewrite run_setup_calls, run_trace.
  split; [reflexivity|].
  constructor; [|constructor].
  intros Hin. cbn [packages setup_kwargs] in Hin.
  apply (Hex d ["test"] "test" "test" Hin); [now left | reflexivity | reflexivity].
Qed.

Lemma C9_test_excluded_witness :
  honours_exclude PackageFinder_find /\
  find_packages_calls (run PackageFinder_find checkout_with_tests) = [["test"]] /\
  Forall (fun kw => ~ In "test" (packages kw))
         (setup_calls (run PackageFinder_find checkout_with_tests)).
Proof.
  split.
  - exact PackageFinder_find_honours_exclude.
  - apply (C9_test_excluded PackageFinder_find checkout_with_tests).
    exact PackageFinder_find_honours_exclude.
Defined.

(** C10: the [classifiers] argument is the empty list. *)
Theorem C10_classifiers_empty (finder : dir -> list string -> list string) (d : dir) :
  exists kw, setup_calls (run finder d) = [kw] /\ classifiers kw = [].
Proof.
  the_call finder d. reflexivity.
Qed.

(** ** Further properties of the manifest *)

(** X1: of all names, the patterns passed to [find_packages] match [test]
    and no other: in particular no sub-package [test.x] and no directory
    [tests] is covered by the exclusion. *)
Theorem X1_exclude_matches_test_only (finder : dir -> list string -> list string) (d : dir) :
  Forall (fun ex =>
            (forall nm, build_filter ex nm = true <-> nm = "test") /\
            (forall sub, build_filter ex ("test." ++ sub) = false) /\
            build_filter ex "tests" = false)
         (find_packages_calls (run finder d)).
Proof.
  rewrite run_trace. cbn [find_packages_calls].
  assert (H : forall nm, build_filter ["test"] nm = true <-> nm = "test").
  { intros nm. unfold build_filter. cbn [existsb]. rewrite orb_false_r.
    now apply fnmatchcase_plain. }
  constructor; [|constructor].
  split; [exact H|]. split.
  - intros sub. destruct (build_filter ["test"] ("test." ++ sub)) eqn:E;
      [|reflexivity].
    apply H in E. discriminate.
  - reflexivity.
Qed.

(** X2: every declared dependency is a bare project name: it is not empty
    and holds no character other than letters, digits, [-], [_] and [.], so
    none carries a version constraint, an extra, a marker or a URL. *)
Theorem X2_requirements_unpinned (finder : dir -> list string -> list string) (d : dir) :
  exists kw, setup_calls (run finder d) = [kw] /\
    Forall (fun r => r <> "" /\
                     forall c, name_char c = false -> contains c r = false)
           (install_requires kw).
Proof.
  the_call finder d. cbn [install_requires setup_kwargs].
  repeat constructor; try discriminate;
    intros c Hc; apply (all_chars_excludes name_char); auto.
Qed.

(** X3: no dependency and no keyword is declared twice, and the package
    does not depend on itself. *)
Theorem X3_no_duplicates (finder : dir -> list string -> list string) (d : dir) :
  exists kw, setup_calls (run finder d) = [kw] /\
    NoDup (install_requires kw) /\
    NoDup (keywords kw) /\
    ~ In (name kw) (install_requires kw).
Proof.
  the_call finder d. cbn [install_requires keywords name setup_kwargs].
  assert (Hdec : forall (x : string) l, existsb (String.eqb x) l = false -> ~ In x l).
  { intros x l H Hin.
    assert (E : existsb (String.eqb x) l = true).
    { apply existsb_exists. exists x. split; [exact Hin | apply String.eqb_refl]. }
    congruence. }
  repeat split; repeat (constructor; [apply Hdec; reflexivity|]);
    try constructor.
  apply Hdec. reflexivity.
Qed.

(** X4: the package, its script and its repository carry one name: the
    command installed for the script is the package name, and so is the
    last component of the source URL. *)
Theorem X4_one_name (finder : dir -> list string -> list string) (d : dir) :
  exists kw, setup_calls (run finder d) = [kw] /\
    installed_commands kw = [name kw] /\
    basename (url kw) = name kw /\
    url kw = ("https://github.com/vaquerizaslab/" ++ name kw)%string.
Proof.
  the_call finder d.
  set (kw := setup_kwargs (finder d ["test"])).
  assert (E : url kw = ("https://github.com/vaquerizaslab/" ++ name kw)%string)
    by reflexivity.
  split; [|split; [|exact E]].
  - unfold installed_commands.
    change (scripts kw) with [("bin" ++ String "/" (name kw))%string].
    cbn [map]. now rewrite basename_app.
  - replace (url kw)
      with ("https://github.com/vaquerizaslab" ++ String "/" (name kw))%string
      by (rewrite E; reflexivity).
    now rewrite basename_app.
Qed.

(** X5: the description is the one-line summary given in the source: it is
    not empty and holds neither a line feed nor a carriage return. *)
Theorem X5_description_one_line (finder : dir -> list string -> list string) (d : dir) :
  exists kw, setup_calls (run finder d) = [kw] /\
    description kw = "Assistant to find cutoffs in TAD calling algorithms." /\
    description kw <> "" /\
    contains LF (description kw) = false /\
    contains CR (description kw) = false.
Proof.
  the_call finder d. cbn [description setup_kwargs].
  split; [reflexivity|]. split; [discriminate|]. split; reflexivity.
Qed.

(** X6: the version is a dotted pair of decimal numbers, 0 and 61. *)
Theorem X6_version_numeric (finder : dir -> list string -> list string) (d : dir) :
  exists kw, setup_calls (run finder d) = [kw] /\
    map decimal (split "." (version kw)) = [Some 0; Some 61].
Proof.
  the_call finder d. reflexivity.
Qed.
